(** * pyod.models.auto_encoder: the reconstruction-based outlier detector

    A shallow embedding of [AutoEncoder] (pyod/models/auto_encoder.py):
    construction ([__init__]), [_build_model], [fit] and
    [decision_function].

    - Python lists of layer widths live in a store of list objects, addressed
      by location, because the constructor keeps the caller's list object and
      [fit] updates a list in place.
    - numpy arrays live in a store of arrays; [fit] shuffles one in place.
    - keras, scikit-learn's scaler, numpy's random generator and the
      [BaseDetector] base class are the operations of an [Engine]; nothing is
      assumed about what they compute unless a theorem states it.
    - array entries and scores are real numbers; the constructor's float
      arguments are binary64 floats. *)

From Corelib Require Import PrimFloat.
From Stdlib Require Import ZArith QArith Qround Reals Lra String.
From stdpp Require Import gmap list sorting.

Set Warnings "-inexact-float".
Close Scope Q_scope.
Close Scope R_scope.
Local Open Scope Z_scope.

(** ** Values *)

(** A reference to a Python object (a list of widths, or an ndarray). *)
Definition loc := positive.

(** The contents of a two-dimensional ndarray, row by row. *)
Definition matrix := list (list R).

Inductive exn :=
| ValueError (msg : string)
| TypeError (msg : string)
| AttributeError (msg : string)
| IndexError (msg : string)
| NotFittedError (msg : string).

Inductive result (A : Type) :=
| Ok (a : A)
| Raise (e : exn).
Arguments Ok {A} a.
Arguments Raise {A} e.

#[global] Instance result_ret : MRet result := fun A a => Ok a.
#[global] Instance result_bind : MBind result := fun A B f r =>
  match r with
  | Ok a => f a
  | Raise e => Raise e
  end.

(** A numpy float64 that summarises integer widths: an exact rational in
    lowest terms, or a non-finite value (nan, inf). *)
Inductive float64 :=
| Finite (q : Q)
| NonFinite.

(** The layers [_build_model] adds to the [Sequential] model. *)
Inductive layer :=
| Dense (units : Z) (activation : string) (input_shape : option Z)
        (activity_regularizer : float)
| Dropout (rate : float).

(** The constructor arguments that are stored and never reassigned. *)
Record hyper := Hyper {
  hidden_activation : string;
  output_activation : string;
  loss : string;
  optimizer : string;
  epochs : Z;
  batch_size : Z;
  dropout_rate : float;
  l2_regularizer : float;
  validation_size : float;
  preprocessing : bool;
  verbose : Z;
  random_state : option Z
}.

(** ** The collaborators outside the file

    [BaseDetector] (pyod.models.base), [StandardScaler] (scikit-learn),
    [np.random] and the keras model.  These operations return; the calls
    that can raise are described by [Faults] further down. *)
Class Engine := {
  base_state : Type;
  scaler : Type;
  model : Type;
  history : Type;
  rng : Type;
  (* super().__init__(contamination=contamination) *)
  BaseDetector_init : float -> result base_state;
  (* self._set_n_classes(None) *)
  BaseDetector_set_n_classes : base_state -> base_state;
  (* self._process_decision_scores(), reading self.decision_scores_ *)
  BaseDetector_process_decision_scores : base_state -> list R -> base_state;
  (* StandardScaler().fit(X) *)
  StandardScaler_fit : matrix -> scaler;
  (* scaler.transform(X): a new array *)
  StandardScaler_transform : scaler -> matrix -> matrix;
  (* np.random.shuffle on the contents of an array *)
  np_random_shuffle : rng -> matrix -> rng * matrix;
  (* Sequential() with the layers added, then compile(loss, optimizer) *)
  Sequential_compile : rng -> list layer -> string -> string -> rng * model;
  (* model.fit(x, y, epochs, batch_size, shuffle=True, validation_split, verbose) *)
  Model_fit : rng -> model -> matrix -> matrix -> Z -> Z -> float -> Z ->
              rng * model * history;
  (* model.predict(X) *)
  Model_predict : model -> matrix -> matrix
}.

(** ** numpy and scikit-learn helpers on values *)

Definition shape0 (X : matrix) : nat := length X.

Definition shape1 (X : matrix) : nat :=
  match X with
  | [] => 0%nat
  | r :: _ => length r
  end.

(** What [sklearn.utils.check_array] accepts of a list of rows: a rectangular
    array with at least one sample and at least one feature. *)
Definition check_array_ok (X : matrix) : bool :=
  (1 <=? shape0 X)%nat && (1 <=? shape1 X)%nat
  && forallb (fun r => (length r =? shape1 X)%nat) X.

(** [np.min] of a list of integers; numpy raises ValueError on an empty one. *)
Definition np_min (l : list Z) : result Z :=
  match l with
  | [] => Raise (ValueError "zero-size array to reduction operation minimum which has no identity")
  | x :: l' => Ok (foldr Z.min x l')
  end.

(** [np.median] of a list of integers: the middle element of the sorted list,
    or the mean of the two middle elements; nan on an empty list. *)
Definition np_median (l : list Z) : float64 :=
  let s := merge_sort Z.le l in
  let n := length s in
  match n with
  | O => NonFinite
  | _ =>
    if Nat.odd n then Finite (inject_Z (nth (n / 2) s 0))
    else Finite (Qred (Qmake (nth (n / 2 - 1) s 0 + nth (n / 2) s 0) 2))
  end.

(** [n // d] for an integer [n] and a float64 [d]: the floor of the quotient,
    non-finite when [d] is zero or non-finite. *)
Definition floor_div (n : Z) (d : float64) : float64 :=
  match d with
  | Finite q =>
    if Qeq_bool q 0 then NonFinite
    else Finite (inject_Z (Qfloor (Qdiv (inject_Z n) q)))
  | NonFinite => NonFinite
  end.

(** Modelled from the spec: [check_parameter] (pyod.utils.utility) is not
    among the sources.  The spec's parameter validator, given
    (dropout_rate, lower_bound=0, upper_bound=1), fails construction if the
    value is out of bounds, the bounds being the interval [0, 1). *)
Definition check_parameter (param low high : float) (param_name : string)
  : result bool :=
  if PrimFloat.leb low param && PrimFloat.ltb param high then Ok true
  else Raise (ValueError (String.append param_name " is out of range")).

(** Modelled from the spec: [pairwise_distances_no_broadcast]
    (pyod.utils.stat_models) is not among the sources.  For two row-aligned
    matrices of identical shape it gives, for each row, the square root of
    the sum of squared per-feature differences. *)
Definition row_distance (x y : list R) : R :=
  R_sqrt.sqrt (foldr Rplus 0%R (zip_with (fun a b => ((a - b) * (a - b))%R) x y)).

Definition pairwise_distances_no_broadcast (X Y : matrix) : list R :=
  zip_with row_distance X Y.

(** The matrix the network sees: standardized when [preprocessing] is set,
    a copy of the input otherwise. *)
Definition standardize {E : Engine} (pre : bool) (s : scaler) (X : matrix) : matrix :=
  if pre then StandardScaler_transform s X else X.

(** Rows of [X] taken in the order [sigma] lists their indices. *)
Definition permute_rows {A : Type} (sigma : list nat) (X : list A) : list A :=
  omap (fun i => X !! i) sigma.

(** The widths of the [Dense] layers of a stack of layers, in order. *)
Fixpoint dense_units (L : list layer) : list Z :=
  match L with
  | [] => []
  | Dense u _ _ _ :: L' => u :: dense_units L'
  | Dropout _ :: L' => dense_units L'
  end.

(** The rates of the [Dropout] layers of a stack of layers, in order. *)
Fixpoint dropout_rates (L : list layer) : list float :=
  match L with
  | [] => []
  | Dense _ _ _ _ :: L' => dropout_rates L'
  | Dropout r :: L' => r :: dropout_rates L'
  end.

(** ** The detector object and the program state *)

Section Detector.
Context {E : Engine}.

(** The attributes of [self].  An attribute that has not been assigned yet
    is [None].  [hidden_neurons] and [hidden_neurons_] hold references to
    list objects, not lists. *)
Record AutoEncoder := MkAutoEncoder {
  base : base_state;
  hidden_neurons : loc;
  hidden_neurons_ : loc;
  hp : hyper;
  n_samples_ : option Z;
  n_features_ : option Z;
  scaler_ : option scaler;
  encoding_dim_ : option float64;
  compression_rate_ : option float64;
  model_ : option model;
  history_ : option history;
  decision_scores_ : option (list R)
}.

(** The objects the program shares with its caller, and numpy's global
    random state. *)
Record world := World {
  lists : gmap loc (list Z);
  arrays : gmap loc matrix;
  np_random : rng
}.

Definition set_base (f : base_state -> base_state) (d : AutoEncoder) : AutoEncoder :=
  MkAutoEncoder (f (base d)) (hidden_neurons d) (hidden_neurons_ d) (hp d)
    (n_samples_ d) (n_features_ d) (scaler_ d) (encoding_dim_ d)
    (compression_rate_ d) (model_ d) (history_ d) (decision_scores_ d).

Definition set_shape (n f : Z) (d : AutoEncoder) : AutoEncoder :=
  MkAutoEncoder (base d) (hidden_neurons d) (hidden_neurons_ d) (hp d)
    (Some n) (Some f) (scaler_ d) (encoding_dim_ d)
    (compression_rate_ d) (model_ d) (history_ d) (decision_scores_ d).

Definition set_scaler_ (s : scaler) (d : AutoEncoder) : AutoEncoder :=
  MkAutoEncoder (base d) (hidden_neurons d) (hidden_neurons_ d) (hp d)
    (n_samples_ d) (n_features_ d) (Some s) (encoding_dim_ d)
    (compression_rate_ d) (model_ d) (history_ d) (decision_scores_ d).

Definition set_encoding_dim_ (v : float64) (d : AutoEncoder) : AutoEncoder :=
  MkAutoEncoder (base d) (hidden_neurons d) (hidden_neurons_ d) (hp d)
    (n_samples_ d) (n_features_ d) (scaler_ d) (Some v)
    (compression_rate_ d) (model_ d) (history_ d) (decision_scores_ d).

Definition set_compression_rate_ (v : float64) (d : AutoEncoder) : AutoEncoder :=
  MkAutoEncoder (base d) (hidden_neurons d) (hidden_neurons_ d) (hp d)
    (n_samples_ d) (n_features_ d) (scaler_ d) (encoding_dim_ d)
    (Some v) (model_ d) (history_ d) (decision_scores_ d).

Definition set_model_ (m : model) (d : AutoEncoder) : AutoEncoder :=
  MkAutoEncoder (base d) (hidden_neurons d) (hidden_neurons_ d) (hp d)
    (n_samples_ d) (n_features_ d) (scaler_ d) (encoding_dim_ d)
    (compression_rate_ d) (Some m) (history_ d) (decision_scores_ d).

Definition set_history_ (h : history) (d : AutoEncoder) : AutoEncoder :=
  MkAutoEncoder (base d) (hidden_neurons d) (hidden_neurons_ d) (hp d)
    (n_samples_ d) (n_features_ d) (scaler_ d) (encoding_dim_ d)
    (compression_rate_ d) (model_ d) (Some h) (decision_scores_ d).

Definition set_decision_scores_ (v : list R) (d : AutoEncoder) : AutoEncoder :=
  MkAutoEncoder (base d) (hidden_neurons d) (hidden_neurons_ d) (hp d)
    (n_samples_ d) (n_features_ d) (scaler_ d) (encoding_dim_ d)
    (compression_rate_ d) (model_ d) (history_ d) (Some v).

Definition set_lists (l : gmap loc (list Z)) (w : world) : world :=
  World l (arrays w) (np_random w).

Definition set_arrays (a : gmap loc matrix) (w : world) : world :=
  World (lists w) a (np_random w).

Definition set_np_random (g : rng) (w : world) : world :=
  World (lists w) (arrays w) g.

(** Reading objects through references. *)
Definition read_list (l : loc) (w : world) : result (list Z) :=
  match lists w !! l with
  | Some ws => Ok ws
  | None => Raise (TypeError "object is not a list")
  end.

Definition read_array (x : loc) (w : world) : result matrix :=
  match arrays w !! x with
  | Some X => Ok X
  | None => Raise (ValueError "Expected 2D array")
  end.

(** Reading an attribute of [self] that may not have been assigned. *)
Definition attr {A : Type} (name : string) (v : option A) : result A :=
  match v with
  | Some a => Ok a
  | None => Raise (AttributeError name)
  end.

(** [sklearn.utils.check_array(X)]: validates, and returns the array it was
    given (no copy is requested). *)
Definition check_array (x : loc) (w : world) : result loc :=
  X ← read_array x w;
  if check_array_ok X then Ok x
  else Raise (ValueError "array rejected by check_array").

(** [sklearn.utils.validation.check_is_fitted(self, ['model_', 'history_'])]:
    every listed attribute must be present. *)
Definition check_is_fitted (self : AutoEncoder) : result unit :=
  match model_ self, history_ self with
  | Some _, Some _ => Ok tt
  | _, _ => Raise (NotFittedError "This AutoEncoder instance is not fitted yet")
  end.

(** ** Statements that update [self] and the world, and may raise *)

Definition M (A : Type) : Type :=
  AutoEncoder * world -> (AutoEncoder * world) * result A.

#[global] Instance M_ret : MRet M := fun A a s => (s, Ok a).
#[global] Instance M_bind : MBind M := fun A B f m s =>
  match m s with
  | (s', Ok a) => f a s'
  | (s', Raise e) => (s', Raise e)
  end.

Definition raise {A : Type} (e : exn) : M A := fun s => (s, Raise e).
Definition get_self : M AutoEncoder := fun s => (s, Ok (fst s)).
Definition update_self (f : AutoEncoder -> AutoEncoder) : M unit :=
  fun s => ((f (fst s), snd s), Ok tt).
Definition get_world : M world := fun s => (s, Ok (snd s)).
Definition update_world (f : world -> world) : M unit :=
  fun s => ((fst s, f (snd s)), Ok tt).
Definition lift {A : Type} (r : result A) : M A := fun s => (s, r).
Definition read {A : Type} (f : world -> result A) : M A :=
  fun s => (s, f (snd s)).

(** A new array object holding [X]. *)
Definition new_array (X : matrix) : M loc :=
  w ← get_world;
  let x := fresh (dom (arrays w)) in
  update_world (set_arrays (<[x := X]> (arrays w)));;
  mret x.

(** [np.random.shuffle(x)]: shuffles the rows of the array object in place. *)
Definition shuffle_in_place (x : loc) : M unit :=
  X ← read (read_array x);
  w ← get_world;
  let '(g, X') := np_random_shuffle (np_random w) X in
  update_world (fun w => set_np_random g (set_arrays (<[x := X']> (arrays w)) w)).

(** [l.insert(0, v)]: prepends to the list object in place. *)
Definition list_insert_front (l : loc) (v : Z) : M unit :=
  ws ← read (read_list l);
  update_world (fun w => set_lists (<[l := v :: ws]> (lists w)) w).

(** ** [AutoEncoder.__init__] (lines 115-141) *)

Definition __init__ (hidden_neurons_arg : loc) (h : hyper) (contamination : float)
    (w : world) : result AutoEncoder :=
  b ← BaseDetector_init contamination;
  let self := MkAutoEncoder b hidden_neurons_arg hidden_neurons_arg h
                None None None None None None None None in
  ws ← read_list (hidden_neurons self) w;
  if negb (bool_decide (ws = reverse ws))
  then Raise (ValueError "Hidden units should be symmetric")
  else
    _ ← check_parameter (dropout_rate h) 0%float 1%float "alpha";
    Ok self.
(** ** [AutoEncoder._build_model] (lines 143-167) *)

Definition _build_model : M model :=
  self ← get_self;
  ws ← read (read_list (hidden_neurons_ self));
  first ← lift (match ws with
                | [] => Raise (IndexError "list index out of range")
                | u :: _ => Ok u
                end);
  f ← lift (attr "n_features_" (n_features_ self));
  let h := hp self in
  (* Input layer *)
  let input_layer :=
    [Dense first (hidden_activation h) (Some f) (l2_regularizer h);
     Dropout (dropout_rate h)] in
  (* Additional layers: for i in range(1, len(self.hidden_neurons_)) *)
  let additional :=
    flat_map (fun u => [Dense u (hidden_activation h) None (l2_regularizer h);
                        Dropout (dropout_rate h)]) (tail ws) in
  (* Output layers *)
  let output_layer :=
    [Dense f (output_activation h) None (l2_regularizer h)] in
  (* Compile model *)
  w ← get_world;
  let '(g, m) := Sequential_compile (np_random w)
                   (input_layer ++ additional ++ output_layer)
                   (loss h) (optimizer h) in
  update_world (set_np_random g);;
  mret m.

(** ** [AutoEncoder.fit] (lines 169-217), called with y=None *)

Definition fit (X : loc) : M unit :=
  (* Validate inputs X and y (optional) *)
  X ← read (check_array X);
  update_self (set_base BaseDetector_set_n_classes);;
  (* Verify and construct the hidden units *)
  Xv ← read (read_array X);
  update_self (set_shape (Z.of_nat (shape0 Xv)) (Z.of_nat (shape1 Xv)));;
  (* Standardize data for better performance *)
  self ← get_self;
  X_norm ← (if preprocessing (hp self)
             then
               let s := StandardScaler_fit Xv in
               update_self (set_scaler_ s);;
               new_array (StandardScaler_transform s Xv)
             else new_array Xv);
  (* Shuffle the data for validation *)
  shuffle_in_place X_norm;;
  (* Validate and complete the number of hidden neurons *)
  self ← get_self;
  ws ← read (read_list (hidden_neurons self));
  least ← lift (np_min ws);
  f ← lift (attr "n_features_" (n_features_ self));
  if least >? f
  then raise (ValueError
                "The number of neurons should not exceed the number of features")
  else
    list_insert_front (hidden_neurons_ self) f;;
    (* Calculate the dimension of the encoding layer & compression rate *)
    ws ← read (read_list (hidden_neurons self));
    update_self (set_encoding_dim_ (np_median ws));;
    self ← get_self;
    enc ← lift (attr "encoding_dim_" (encoding_dim_ self));
    update_self (set_compression_rate_ (floor_div f enc));;
    (* Build AE model & fit with X *)
    m0 ← _build_model;
    update_self (set_model_ m0);;
    self ← get_self;
    Xn ← read (read_array X_norm);
    w ← get_world;
    let '(g, m1, hist) :=
      Model_fit (np_random w) m0 Xn Xn (epochs (hp self)) (batch_size (hp self))
        (validation_size (hp self)) (verbose (hp self)) in
    update_world (set_np_random g);;
    (* the model object self.model_ refers to has been trained in place *)
    update_self (set_model_ m1);;
    update_self (set_history_ hist);;
    (* Predict on X itself and calculate the reconstruction error as the
       outlier scores.  X_norm was shuffled and has to be recreated *)
    self ← get_self;
    Xv ← read (read_array X);
    X_norm ← (if preprocessing (hp self)
               then
                 s ← lift (attr "scaler_" (scaler_ self));
                 mret (StandardScaler_transform s Xv)
               else mret Xv);
    m ← lift (attr "model_" (model_ self));
    let pred_scores := Model_predict m X_norm in
    update_self (set_decision_scores_
                   (pairwise_distances_no_broadcast X_norm pred_scores));;
    self ← get_self;
    scores ← lift (attr "decision_scores_" (decision_scores_ self));
    update_self (set_base (fun b => BaseDetector_process_decision_scores b scores));;
    mret tt.

(** ** [AutoEncoder.decision_function] (lines 219-230)

    It reads [self] and the array and updates neither, so it is a function
    of them. *)

Definition decision_function (self : AutoEncoder) (X : loc) (w : world)
  : result (list R) :=
  _ ← check_is_fitted self;
  X ← check_array X w;
  Xv ← read_array X w;
  X_norm ← (if preprocessing (hp self)
             then
               s ← attr "scaler_" (scaler_ self);
               Ok (StandardScaler_transform s Xv)
             else Ok Xv);
  (* Predict on X and return the reconstruction errors *)
  m ← attr "model_" (model_ self);
  let pred_scores := Model_predict m X_norm in
  Ok (pairwise_distances_no_broadcast X_norm pred_scores).

(** A detector on which a call of [fit] has returned. *)
Definition fitted (d : AutoEncoder) : Prop :=
  exists X d0 w0 w1, fit X (d0, w0) = ((d, w1), Ok tt).

(** A detector built by the constructor from the list object [hn] and the
    stored arguments [h], after any number of calls of [fit], returning or
    raising, in any state of the stores. *)
Inductive constructed_from (hn : loc) (h : hyper) : AutoEncoder -> Prop :=
| constructed_new c w d :
    __init__ hn h c w = Ok d -> constructed_from hn h d
| constructed_fit d w X d' w' r :
    constructed_from hn h d -> fit X (d, w) = ((d', w'), r) ->
    constructed_from hn h d'.

(** ** [fit] and [decision_function] when library calls raise

    The operations of an [Engine] always return.  The library calls they
    stand for can raise: the scaler's transform, keras when it builds, fits
    or predicts, the distance helper when it validates its arguments, the
    base class when it processes the scores.  [Faults] says, for each such
    call and its arguments, whether it raises and what; the functions below
    are [_build_model], [fit] and [decision_function] again, statement by
    statement, with each of these calls raising when [Faults] says so.
    ([fit_transform] on the array [check_array] has just accepted, and
    [np.random.shuffle], are taken to return.) *)
Record Faults := MkFaults {
  (* lines 209 and 224: self.scaler_.transform(X) *)
  transform_raises : scaler -> matrix -> option exn;
  (* lines 144-165: Sequential(), add, compile *)
  compile_raises : list layer -> option exn;
  (* lines 200-205: self.model_.fit(X_norm, X_norm, ...) *)
  keras_fit_raises : model -> matrix -> option exn;
  (* lines 213 and 229: self.model_.predict(X_norm) *)
  predict_raises : model -> matrix -> option exn;
  (* lines 214 and 230: pairwise_distances_no_broadcast(X_norm, pred_scores) *)
  distances_raise : matrix -> matrix -> option exn;
  (* line 216: self._process_decision_scores() *)
  process_raises : base_state -> list R -> option exn
}.

(** No library call raises. *)
Definition no_faults : Faults :=
  MkFaults (fun _ _ => None) (fun _ => None) (fun _ _ => None)
    (fun _ _ => None) (fun _ _ => None) (fun _ _ => None).


Definition guard (o : option exn) : M unit :=
  match o with
  | Some e => raise e
  | None => mret tt
  end.

Definition guard_result (o : option exn) : result unit :=
  match o with
  | Some e => Raise e
  | None => Ok tt
  end.

Definition _build_model_lib (F : Faults) : M model :=
  self ← get_self;
  ws ← read (read_list (hidden_neurons_ self));
  first ← lift (match ws with
                | [] => Raise (IndexError "list index out of range")
                | u :: _ => Ok u
                end);
  f ← lift (attr "n_features_" (n_features_ self));
  let h := hp self in
  let input_layer :=
    [Dense first (hidden_activation h) (Some f) (l2_regularizer h);
     Dropout (dropout_rate h)] in
  let additional :=
    flat_map (fun u => [Dense u (hidden_activation h) None (l2_regularizer h);
                        Dropout (dropout_rate h)]) (tail ws) in
  let output_layer :=
    [Dense f (output_activation h) None (l2_regularizer h)] in
  guard (compile_raises F (input_layer ++ additional ++ output_layer));;
  w ← get_world;
  let '(g, m) := Sequential_compile (np_random w)
                   (input_layer ++ additional ++ output_layer)
                   (loss h) (optimizer h) in
  update_world (set_np_random g);;
  mret m.

Definition fit_lib (F : Faults) (X : loc) : M unit :=
  X ← read (check_array X);
  update_self (set_base BaseDetector_set_n_classes);;
  Xv ← read (read_array X);
  update_self (set_shape (Z.of_nat (shape0 Xv)) (Z.of_nat (shape1 Xv)));;
  self ← get_self;
  X_norm ← (if preprocessing (hp self)
             then
               let s := StandardScaler_fit Xv in
               update_self (set_scaler_ s);;
               new_array (StandardScaler_transform s Xv)
             else new_array Xv);
  shuffle_in_place X_norm;;
  self ← get_self;
  ws ← read (read_list (hidden_neurons self));
  least ← lift (np_min ws);
  f ← lift (attr "n_features_" (n_features_ self));
  if least >? f
  then raise (ValueError
                "The number of neurons should not exceed the number of features")
  else
    list_insert_front (hidden_neurons_ self) f;;
    ws ← read (read_list (hidden_neurons self));
    update_self (set_encoding_dim_ (np_median ws));;
    self ← get_self;
    enc ← lift (attr "encoding_dim_" (encoding_dim_ self));
    update_self (set_compression_rate_ (floor_div f enc));;
    m0 ← _build_model_lib F;
    update_self (set_model_ m0);;
    self ← get_self;
    Xn ← read (read_array X_norm);
    guard (keras_fit_raises F m0 Xn);;
    w ← get_world;
    let '(g, m1, hist) :=
      Model_fit (np_random w) m0 Xn Xn (epochs (hp self)) (batch_size (hp self))
        (validation_size (hp self)) (verbose (hp self)) in
    update_world (set_np_random g);;
    update_self (set_model_ m1);;
    update_self (set_history_ hist);;
    self ← get_self;
    Xv ← read (read_array X);
    X_norm ← (if preprocessing (hp self)
               then
                 s ← lift (attr "scaler_" (scaler_ self));
                 guard (transform_raises F s Xv);;
                 mret (StandardScaler_transform s Xv)
               else mret Xv);
    m ← lift (attr "model_" (model_ self));
    guard (predict_raises F m X_norm);;
    let pred_scores := Model_predict m X_norm in
    guard (distances_raise F X_norm pred_scores);;
    update_self (set_decision_scores_
                   (pairwise_distances_no_broadcast X_norm pred_scores));;
    self ← get_self;
    scores ← lift (attr "decision_scores_" (decision_scores_ self));
    guard (process_raises F (base self) scores);;
    update_self (set_base (fun b => BaseDetector_process_decision_scores b scores));;
    mret tt.

Definition decision_function_lib (F : Faults) (self : AutoEncoder) (X : loc)
    (w : world) : result (list R) :=
  _ ← check_is_fitted self;
  X ← check_array X w;
  Xv ← read_array X w;
  X_norm ← (if preprocessing (hp self)
             then
               s ← attr "scaler_" (scaler_ self);
               _ ← guard_result (transform_raises F s Xv);
               Ok (StandardScaler_transform s Xv)
             else Ok Xv);
  m ← attr "model_" (model_ self);
  _ ← guard_result (predict_raises F m X_norm);
  let pred_scores := Model_predict m X_norm in
  _ ← guard_result (distances_raise F X_norm pred_scores);
  Ok (pairwise_distances_no_broadcast X_norm pred_scores).


End Detector.

(** ** A small engine to run the definitions on

    The scaler is the identity, shuffling reverses the rows, training does
    nothing and the network reproduces its input. *)
Definition stub_engine : Engine := {|
  base_state := unit;
  scaler := unit;
  model := unit;
  history := unit;
  rng := unit;
  BaseDetector_init := fun _ => Ok tt;
  BaseDetector_set_n_classes := fun b => b;
  BaseDetector_process_decision_scores := fun b _ => b;
  StandardScaler_fit := fun _ => tt;
  StandardScaler_transform := fun _ X => X;
  np_random_shuffle := fun g X => (g, reverse X);
  Sequential_compile := fun g _ _ _ => (g, tt);
  Model_fit := fun g m _ _ _ _ _ _ => (g, m, tt);
  Model_predict := fun _ X => X
|}.

(** The constructor's defaults (line 115-120) for the stored arguments. *)
Definition default_hyper : hyper := {|
  hidden_activation := "relu";
  output_activation := "sigmoid";
  loss := "mean_squared_error";
  optimizer := "adam";
  epochs := 100;
  batch_size := 32;
  dropout_rate := 0.2%float;
  l2_regularizer := 0.1%float;
  validation_size := 0.1%float;
  preprocessing := true;
  verbose := 1;
  random_state := None
|}.

Definition with_dropout_rate (r : float) (h : hyper) : hyper :=
  Hyper (hidden_activation h) (output_activation h) (loss h) (optimizer h)
    (epochs h) (batch_size h) r (l2_regularizer h) (validation_size h)
    (preprocessing h) (verbose h) (random_state h).

(** A world with one list object and one array object, both at location 1. *)
Definition stub_world (ws : list Z) (X : matrix) : @world stub_engine :=
  @World stub_engine {[ 1%positive := ws ]} {[ 1%positive := X ]} tt.

(** The object the constructor returns on the stub engine for the list at
    location 1. *)
Definition stub_detector (h : hyper) : @AutoEncoder stub_engine :=
  @MkAutoEncoder stub_engine tt 1%positive 1%positive h
    None None None None None None None None.

(** Two rows of two features, and one row of four. *)
Definition stub_matrix : matrix := [[0%R; 0%R]; [1%R; 1%R]].

Definition stub_row4 : matrix := [[0%R; 0%R; 0%R; 0%R]].

(** A world with a second array object, at location 2. *)
Definition stub_world2 (ws : list Z) (X X' : matrix) : @world stub_engine :=
  @World stub_engine {[ 1%positive := ws ]}
    (<[ 2%positive := X' ]> {[ 1%positive := X ]}) tt.

(** The detector after [fit] on [stub_matrix] with widths 2, 2. *)
Definition stub_fitted : @AutoEncoder stub_engine :=
  fst (fst (fit 1%positive
              (stub_detector default_hyper, stub_world [2; 2] stub_matrix))).



(** * Properties *)

Section Properties.
Context {E : Engine}.

Ltac unfold_m :=
  unfold mbind, mret, M_bind, M_ret, result_bind, result_ret, read, lift,
    raise, get_self, get_world, update_self, update_world in *.

Ltac norm_in H :=
  repeat (progress (cbn in H; unfold read_array, read_list in H)).

(** One step of [fit] in the hypothesis [H], using what the context knows
    about the stores and the input. *)
Ltac fit_step H :=
  first
  [ progress norm_in H
  | rewrite lookup_insert_eq in H
  | rewrite lookup_insert_ne in H by done
  | match type of H with context [?m !! ?k] =>
      match goal with H' : m !! k = _ |- _ => rewrite H' in H end end
  | match type of H with context [np_min ?l] =>
      match goal with H' : np_min l = _ |- _ => rewrite H' in H end end
  | match type of H with context [check_array_ok ?l] =>
      match goal with H' : check_array_ok l = _ |- _ => rewrite H' in H end end
  | match type of H with context [?a >? ?b] =>
      match goal with H' : (a >? b) = _ |- _ => rewrite H' in H end end
  | match type of H with context [preprocessing ?h] =>
      match goal with H' : preprocessing h = _ |- _ => rewrite H' in H end end
  | match type of H with context [np_random_shuffle ?a ?b] =>
      destruct (np_random_shuffle a b) as [? ?] eqn:? end
  | match type of H with context [Sequential_compile ?a ?b ?c ?d] =>
      destruct (Sequential_compile a b c d) as [? ?] eqn:? end
  | match type of H with context [Model_fit ?a ?b ?c ?d ?e ?f ?g ?h] =>
      destruct (Model_fit a b c d e f g h) as [[? ?] ?] eqn:? end ].

(** The same, splitting on whatever [fit] is stuck on. *)
Ltac fit_case H :=
  first
  [ fit_step H
  | match type of H with context [match ?m !! ?k with _ => _ end] =>
      destruct (m !! k) eqn:? end
  | match type of H with context [np_min ?l] =>
      destruct (np_min l) eqn:? end
  | match type of H with context [if ?b then _ else _] =>
      destruct b eqn:? end
  | match type of H with context [match ?l with [] => _ | _ :: _ => _ end] =>
      destruct l eqn:? end ].

Ltac fit_unfold H :=
  unfold fit, check_array, new_array, shuffle_in_place, list_insert_front,
    _build_model in H;
  unfold_m.

Ltac fit_done H :=
  injection H as <- <- <-; cbn;
  repeat match goal with
         | Hs : np_random_shuffle _ _ = _ |- _ => rewrite Hs; clear Hs
         end;
  cbn; rewrite ?insert_insert_eq.

Lemma fresh_array_ne (a : gmap loc matrix) x X :
  a !! x = Some X -> fresh (dom a) <> x.
Proof.
  intros H Heq. apply (is_fresh (dom a)). rewrite Heq.
  apply elem_of_dom. eauto.
Qed.

Lemma fresh_array_None (a : gmap loc matrix) : a !! fresh (dom a) = None.
Proof. apply not_elem_of_dom, is_fresh. Qed.

(** The constructor stores the caller's list object under both names. *)
Lemma init_Ok hn h c w d :
  __init__ hn h c w = Ok d ->
  exists b ws,
    BaseDetector_init c = Ok b /\
    lists w !! hn = Some ws /\ ws = reverse ws /\
    PrimFloat.leb 0 (dropout_rate h) && PrimFloat.ltb (dropout_rate h) 1 = true /\
    d = MkAutoEncoder b hn hn h None None None None None None None None.
Proof.
  unfold __init__, check_parameter, read_list. unfold_m. cbn.
  destruct (BaseDetector_init c) as [b|]; [|discriminate].
  destruct (lists w !! hn) as [ws|]; [|discriminate].
  case_bool_decide; cbn; [|discriminate].
  destruct (_ && _) eqn:Hr; cbn; [|discriminate].
  intros [= <-]. eauto 10.
Qed.

(** What a returning call of [fit] leaves behind, for a detector whose two
    names refer to one list object. *)
Lemma fit_returns (d d' : AutoEncoder) (w w' : world) x r Xv ws least :
  fit x (d, w) = ((d', w'), r) ->
  arrays w !! x = Some Xv ->
  check_array_ok Xv = true ->
  hidden_neurons_ d = hidden_neurons d ->
  lists w !! hidden_neurons d = Some ws ->
  np_min ws = Ok least ->
  least <= Z.of_nat (shape1 Xv) ->
  let f := Z.of_nat (shape1 Xv) in
  let Xn := standardize (preprocessing (hp d)) (StandardScaler_fit Xv) Xv in
  r = Ok tt /\
  hidden_neurons_ d' = hidden_neurons d /\
  n_samples_ d' = Some (Z.of_nat (shape0 Xv)) /\
  n_features_ d' = Some f /\
  encoding_dim_ d' = Some (np_median (f :: ws)) /\
  compression_rate_ d' = Some (floor_div f (np_median (f :: ws))) /\
  (exists m hist, model_ d' = Some m /\ history_ d' = Some hist /\
     decision_scores_ d' =
       Some (pairwise_distances_no_broadcast Xn (Model_predict m Xn))) /\
  lists w' = <[hidden_neurons d := f :: ws]> (lists w).
Proof.
  intros H HX Hok Hal Hws Hmin Hle f Xn. subst f Xn.
  destruct d as [b hn hn_ h ns nf sc ed cr mo hi ds], w as [ls ar g].
  cbn in HX, Hal, Hws. subst hn_.
  pose proof (fresh_array_ne _ _ _ HX) as Hfr.
  assert (Hgt : (least >? Z.of_nat (shape1 Xv)) = false) by lia.
  cbn. fit_unfold H.
  destruct (preprocessing h) eqn:Hpre; repeat fit_step H;
    fit_done H; repeat split; eauto.
Qed.

(** What every call of [fit] leaves behind, whatever its outcome. *)
Lemma fit_frame (d d' : AutoEncoder) (w w' : world) x r :
  fit x (d, w) = ((d', w'), r) ->
  hidden_neurons d' = hidden_neurons d /\
  hidden_neurons_ d' = hidden_neurons_ d /\
  hp d' = hp d /\
  (forall e, r = Raise e -> model_ d' = model_ d) /\
  (r = Ok tt ->
     is_Some (model_ d') /\ is_Some (history_ d') /\
     (preprocessing (hp d) = true -> is_Some (scaler_ d'))) /\
  match arrays w !! x with
  | Some Xv =>
    if check_array_ok Xv then
      let Xn := standardize (preprocessing (hp d)) (StandardScaler_fit Xv) Xv in
      n_features_ d' = Some (Z.of_nat (shape1 Xv)) /\
      (preprocessing (hp d) = true -> scaler_ d' = Some (StandardScaler_fit Xv)) /\
      arrays w' =
        <[fresh (dom (arrays w)) := (np_random_shuffle (np_random w) Xn).2]> (arrays w)
    else d' = d /\ w' = w /\ r <> Ok tt
  | None => d' = d /\ w' = w /\ r <> Ok tt
  end.
Proof.
  intros H.
  destruct d as [b hn hn_ h ns nf sc ed cr mo hi ds], w as [ls ar g].
  cbn. fit_unfold H.
  destruct (ar !! x) as [Xv|] eqn:HX.
  - pose proof (fresh_array_ne _ _ _ HX) as Hfr.
    destruct (check_array_ok Xv) eqn:Hok.
    + destruct (preprocessing h) eqn:Hpre; repeat fit_case H;
        fit_done H; repeat split; eauto; try discriminate; done.
    + repeat fit_case H. fit_done H. repeat split; eauto; discriminate.
  - repeat fit_case H. fit_done H. repeat split; eauto; discriminate.
Qed.

(** C1, on the code: [fit] computes the encoding width after it has
    prepended the feature count to the list object that [hidden_neurons] also
    names.  For widths 1, 3, 1 and a matrix of four columns the stored
    encoding width is 2 and the stored compression ratio is 2, while the
    median of the widths given at construction is 1 and four divided by it
    is 4. *)
Theorem fit_encoding_dim_after_prepend hn h c w d x Xv d' w' r :
  __init__ hn h c w = Ok d ->
  lists w !! hn = Some [1; 3; 1] ->
  arrays w !! x = Some Xv ->
  check_array_ok Xv = true ->
  shape1 Xv = 4%nat ->
  fit x (d, w) = ((d', w'), r) ->
  r = Ok tt /\
  encoding_dim_ d' = Some (Finite 2%Q) /\
  np_median [1; 3; 1] = Finite 1%Q /\
  compression_rate_ d' = Some (Finite 2%Q) /\
  floor_div 4 (np_median [1; 3; 1]) = Finite 4%Q.
Proof.
  intros Hinit Hws HX Hok Hcols Hfit.
  apply init_Ok in Hinit as (b & ws & _ & Hws' & _ & _ & ->).
  destruct (fit_returns _ _ _ _ _ _ Xv [1; 3; 1] 1 Hfit HX Hok eq_refl Hws eq_refl)
    as (-> & _ & _ & _ & Henc & Hcr & _); [lia|].
  rewrite Henc, Hcr, Hcols. repeat split; reflexivity.
Qed.

(** C2, on the code: a returning call of [fit] on a constructed detector
    leaves the caller's list object with the feature count prepended, and
    the list [hidden_neurons_] names is that same object. *)
Theorem fit_prepends_to_the_callers_list hn h c w d x Xv ws least d' w' r :
  __init__ hn h c w = Ok d ->
  lists w !! hn = Some ws ->
  np_min ws = Ok least ->
  arrays w !! x = Some Xv ->
  check_array_ok Xv = true ->
  least <= Z.of_nat (shape1 Xv) ->
  fit x (d, w) = ((d', w'), r) ->
  r = Ok tt /\
  hidden_neurons_ d' = hn /\
  lists w' !! hn = Some (Z.of_nat (shape1 Xv) :: ws) /\
  lists w' !! hn <> lists w !! hn.
Proof.
  intros Hinit Hws Hmin HX Hok Hle Hfit.
  apply init_Ok in Hinit as (b & ws' & _ & _ & _ & _ & ->).
  destruct (fit_returns _ _ _ _ _ _ Xv ws least Hfit HX Hok eq_refl Hws Hmin Hle)
    as (-> & Hhn & _ & _ & _ & _ & _ & Hl).
  cbn in Hhn, Hl. rewrite Hl, lookup_insert_eq, Hws.
  repeat split; try done.
  intros [= Heq]. apply (f_equal length) in Heq. cbn in Heq. lia.
Qed.

(** C3: with a palindromic width list and a base class that accepts the
    contamination, construction raises the parameter validator's error
    exactly when the dropout rate is outside the interval from 0 (included)
    to 1 (excluded); it raises for 1.0 and -0.1 and returns for 0.0 and
    0.99. *)
Theorem init_checks_dropout_rate hn h c w ws b :
  BaseDetector_init c = Ok b ->
  lists w !! hn = Some ws ->
  ws = reverse ws ->
  (forall r,
     __init__ hn (with_dropout_rate r h) c w =
       if PrimFloat.leb 0 r && PrimFloat.ltb r 1
       then Ok (MkAutoEncoder b hn hn (with_dropout_rate r h)
                  None None None None None None None None)
       else Raise (ValueError "alpha is out of range")) /\
  __init__ hn (with_dropout_rate 1.0%float h) c w =
    Raise (ValueError "alpha is out of range") /\
  __init__ hn (with_dropout_rate (-0.1)%float h) c w =
    Raise (ValueError "alpha is out of range") /\
  (exists d, __init__ hn (with_dropout_rate 0.0%float h) c w = Ok d) /\
  (exists d, __init__ hn (with_dropout_rate 0.99%float h) c w = Ok d).
Proof.
  intros Hb Hws Hpal.
  assert (Hall : forall r,
     __init__ hn (with_dropout_rate r h) c w =
       if PrimFloat.leb 0 r && PrimFloat.ltb r 1
       then Ok (MkAutoEncoder b hn hn (with_dropout_rate r h)
                  None None None None None None None None)
       else Raise (ValueError "alpha is out of range")).
  { intros r. unfold __init__, check_parameter, read_list. unfold_m. cbn.
    rewrite Hb, Hws. rewrite bool_decide_eq_true_2 by done. cbn.
    destruct (_ && _); reflexivity. }
  split; [exact Hall|].
  repeat split; try (eexists); rewrite Hall; reflexivity.
Qed.

(** C4: construction reads the width list and no array.  When the list
    differs from its reversal construction raises, and the error is the
    symmetry error whenever the base class accepted the contamination; when
    the list equals its reversal the symmetry check passes and the outcome
    is that of the dropout-rate check. *)
Theorem init_requires_palindrome hn h c w ws :
  lists w !! hn = Some ws ->
  (forall a, __init__ hn h c (set_arrays a w) = __init__ hn h c w) /\
  (ws <> reverse ws ->
     (exists e, __init__ hn h c w = Raise e) /\
     (forall b, BaseDetector_init c = Ok b ->
        __init__ hn h c w = Raise (ValueError "Hidden units should be symmetric"))) /\
  (ws = reverse ws ->
     forall b, BaseDetector_init c = Ok b ->
       __init__ hn h c w =
         (_ ← check_parameter (dropout_rate h) 0%float 1%float "alpha";
          Ok (MkAutoEncoder b hn hn h None None None None None None None None))).
Proof.
  intros Hws. unfold __init__, read_list. unfold_m. cbn. rewrite Hws.
  split; [done|]. split.
  - intros Hne. rewrite bool_decide_eq_false_2 by done. cbn.
    split; [|by intros b ->].
    destruct (BaseDetector_init c); eauto.
  - intros Heq b ->. rewrite bool_decide_eq_true_2 by done. reflexivity.
Qed.

(** C5: construction with a palindromic list returns whatever its minimum
    is; the comparison with the number of columns is made by [fit], which
    raises the neurons error when the minimum exceeds the number of columns
    and returns when it does not. *)
Theorem fit_checks_min_neurons hn h c w ws b least x Xv :
  BaseDetector_init c = Ok b ->
  lists w !! hn = Some ws ->
  ws = reverse ws ->
  PrimFloat.leb 0 (dropout_rate h) && PrimFloat.ltb (dropout_rate h) 1 = true ->
  np_min ws = Ok least ->
  arrays w !! x = Some Xv ->
  check_array_ok Xv = true ->
  exists d d' w' r,
    __init__ hn h c w = Ok d /\
    fit x (d, w) = ((d', w'), r) /\
    (least > Z.of_nat (shape1 Xv) ->
       r = Raise (ValueError
                    "The number of neurons should not exceed the number of features")) /\
    (least <= Z.of_nat (shape1 Xv) -> r = Ok tt).
Proof.
  intros Hb Hws Hpal Hr Hmin HX Hok.
  exists (MkAutoEncoder b hn hn h None None None None None None None None).
  destruct (fit x (MkAutoEncoder b hn hn h None None None None None None None None, w))
    as [[d' w'] r] eqn:Hfit.
  exists d', w', r. split; [|split; [done|split]].
  - unfold __init__, check_parameter, read_list. unfold_m. cbn.
    rewrite Hb, Hws. rewrite bool_decide_eq_true_2 by done. cbn.
    rewrite Hr. reflexivity.
  - intros Hgt. destruct w as [ls ar g]. cbn in Hws, HX.
    pose proof (fresh_array_ne _ _ _ HX) as Hfr.
    assert (Hgt' : (least >? Z.of_nat (shape1 Xv)) = true) by lia.
    fit_unfold Hfit.
    destruct (preprocessing h) eqn:Hpre; repeat fit_step Hfit;
      by injection Hfit as <- <- <-.
  - intros Hle.
    by destruct (fit_returns _ _ _ _ _ _ Xv ws least Hfit HX Hok eq_refl Hws Hmin Hle)
      as (-> & _).
Qed.

(** C10: a call of [fit] changes no array that existed when it was called,
    the caller's [X] among them.  When [X] passes validation, the scaler
    that is stored was fitted on the contents [X] had at the call, and the
    only array written is a new one, at a location that held nothing
    before: it receives the shuffled rows of the standardized copy. *)
Theorem fit_leaves_arrays_unchanged d w x d' w' r :
  fit x (d, w) = ((d', w'), r) ->
  (forall l M, arrays w !! l = Some M -> arrays w' !! l = Some M) /\
  (forall Xv,
     arrays w !! x = Some Xv ->
     check_array_ok Xv = true ->
     let Xn := standardize (preprocessing (hp d)) (StandardScaler_fit Xv) Xv in
     (preprocessing (hp d) = true -> scaler_ d' = Some (StandardScaler_fit Xv)) /\
     arrays w !! fresh (dom (arrays w)) = None /\
     arrays w' =
       <[fresh (dom (arrays w)) := (np_random_shuffle (np_random w) Xn).2]>
         (arrays w)).
Proof.
  intros Hfit. apply fit_frame in Hfit as (_ & _ & _ & _ & _ & Hcase).
  split.
  - intros l M Hl.
    destruct (arrays w !! x) as [Xv|] eqn:HX; [|by destruct Hcase as (_ & -> & _)].
    destruct (check_array_ok Xv); [|by destruct Hcase as (_ & -> & _)].
    destruct Hcase as (_ & _ & ->).
    rewrite lookup_insert_ne; [done|].
    by apply (fresh_array_ne _ _ M).
  - intros Xv HX Hok. rewrite HX, Hok in Hcase.
    destruct Hcase as (_ & Hs & Ha).
    split; [done|]. split; [apply fresh_array_None|done].
Qed.

Lemma row_distance_nonneg x y : (0 <= row_distance x y)%R.
Proof. apply sqrt_pos. Qed.

Lemma pairwise_length (X Y : matrix) :
  length Y = length X ->
  length (pairwise_distances_no_broadcast X Y) = length X.
Proof.
  intros H. unfold pairwise_distances_no_broadcast.
  rewrite length_zip_with. lia.
Qed.

Lemma pairwise_lookup (X Y : matrix) i sc :
  pairwise_distances_no_broadcast X Y !! i = Some sc ->
  exists xr yr, X !! i = Some xr /\ Y !! i = Some yr /\ sc = row_distance xr yr.
Proof.
  unfold pairwise_distances_no_broadcast. intros H.
  apply lookup_zip_with_Some in H as (xr & yr & -> & ? & ?). eauto.
Qed.

Lemma pairwise_rowwise (p : list R -> list R) (X : matrix) :
  pairwise_distances_no_broadcast X (p <$> X) =
    (fun row => row_distance row (p row)) <$> X.
Proof.
  unfold pairwise_distances_no_broadcast.
  induction X as [|r X IH]; cbn; [done|]. by rewrite IH.
Qed.

(** A fitted detector has its model and history, and its scaler when
    [preprocessing] is set. *)
Lemma fitted_attrs d :
  fitted d ->
  is_Some (model_ d) /\ is_Some (history_ d) /\
  (preprocessing (hp d) = true -> is_Some (scaler_ d)).
Proof.
  intros (X & d0 & w0 & w1 & Hfit).
  apply fit_frame in Hfit as (_ & _ & Hhp & _ & Hok & _).
  rewrite Hhp. by apply Hok.
Qed.

(** C6: on a fitted detector and an array that passes validation and has
    the fitted number of columns, [decision_function] returns one score per
    row; the score of row i is the square root of the sum of squared
    differences between row i of the standardized input and row i of the
    network's output on it, a nonnegative number.  The scaler and the
    network are taken to return as many rows as they are given. *)
Theorem decision_function_is_row_distance d w x Xv :
  (forall s X, length (StandardScaler_transform s X) = length X) ->
  (forall m X, length (Model_predict m X) = length X) ->
  fitted d ->
  arrays w !! x = Some Xv ->
  check_array_ok Xv = true ->
  n_features_ d = Some (Z.of_nat (shape1 Xv)) ->
  exists m Xn scores,
    model_ d = Some m /\
    (if preprocessing (hp d)
     then exists s, scaler_ d = Some s /\ Xn = StandardScaler_transform s Xv
     else Xn = Xv) /\
    decision_function d x w = Ok scores /\
    length scores = length Xv /\
    forall i sc,
      scores !! i = Some sc ->
      (0 <= sc)%R /\
      exists xr pr,
        Xn !! i = Some xr /\ Model_predict m Xn !! i = Some pr /\
        sc = R_sqrt.sqrt
               (foldr Rplus 0%R (zip_with (fun a b => ((a - b) * (a - b))%R) xr pr)).
Proof.
  intros Htl Hpl Hfit HX Hok _.
  apply fitted_attrs in Hfit as ([m Hm] & [hi Hh] & Hs).
  unfold decision_function, check_is_fitted, check_array, read_array.
  unfold_m. rewrite Hm, Hh, HX. cbn. rewrite Hok. cbn. rewrite HX. cbn.
  destruct (preprocessing (hp d)) eqn:Hpre.
  - destruct (Hs eq_refl) as [s Hsc]. rewrite Hsc. cbn.
    eexists m, (StandardScaler_transform s Xv), _.
    split; [done|]. split; [eauto|]. split; [reflexivity|]. split.
    + rewrite pairwise_length; [apply Htl | apply Hpl].
    + intros i sc Hi. apply pairwise_lookup in Hi as (xr & pr & ? & ? & ->).
      split; [apply row_distance_nonneg | by exists xr, pr].
  - cbn. eexists m, Xv, _.
    split; [done|]. split; [done|]. split; [reflexivity|]. split.
    + rewrite pairwise_length; [done | apply Hpl].
    + intros i sc Hi. apply pairwise_lookup in Hi as (xr & pr & ? & ? & ->).
      split; [apply row_distance_nonneg | by exists xr, pr].
Qed.

Lemma permute_rows_fmap {A B : Type} (f : A -> B) sigma (X : list A) :
  permute_rows sigma (f <$> X) = f <$> permute_rows sigma X.
Proof.
  unfold permute_rows. induction sigma as [|i sigma IH]; cbn; [done|].
  rewrite list_lookup_fmap, IH. by destruct (X !! i).
Qed.

Lemma permute_rows_elem {A : Type} sigma (X : list A) y :
  y ∈ permute_rows sigma X -> y ∈ X.
Proof.
  unfold permute_rows. intros H.
  apply list_elem_of_omap in H as (i & _ & Hi).
  by apply list_elem_of_lookup_2 in Hi.
Qed.

Lemma permute_rows_length {A : Type} sigma (X : list A) :
  (forall i, i ∈ sigma -> (i < length X)%nat) ->
  length (permute_rows sigma X) = length sigma.
Proof.
  unfold permute_rows. induction sigma as [|i sigma IH]; cbn; [done|].
  intros Hlt.
  destruct (lookup_lt_is_Some_2 X i) as [y Hy]; [apply Hlt; left|].
  rewrite Hy. cbn. f_equal. apply IH. intros j Hj. apply Hlt. by right.
Qed.

Lemma check_array_ok_rows (X : matrix) :
  check_array_ok X = true <->
  X <> [] /\ exists c, (1 <= c)%nat /\ forall r, r ∈ X -> length r = c.
Proof.
  unfold check_array_ok, shape0, shape1. split.
  - intros H. apply andb_prop in H as [H Hall].
    apply andb_prop in H as [Hr Hc].
    destruct X as [|r0 X]; [discriminate|]. split; [done|].
    exists (length r0). split; [by apply Nat.leb_le in Hc|].
    intros r Hin. rewrite forallb_forall in Hall.
    apply Nat.eqb_eq, Hall. by apply list_elem_of_In.
  - intros [Hne (c & Hc & Hall)].
    destruct X as [|r0 X]; [done|].
    assert (Hr0 : length r0 = c) by (apply Hall; left).
    cbn. rewrite Hr0. apply andb_true_intro. split.
    + destruct c; [lia|done].
    + rewrite Nat.eqb_refl. cbn. apply forallb_forall. intros r Hin.
      apply Nat.eqb_eq, Hall. right. by apply list_elem_of_In.
Qed.

Lemma check_array_ok_permute sigma (X : matrix) :
  sigma ≡ₚ seq 0 (length X) ->
  check_array_ok X = true ->
  check_array_ok (permute_rows sigma X) = true.
Proof.
  intros Hperm Hok. apply check_array_ok_rows in Hok as [Hne (c & Hc & Hall)].
  apply check_array_ok_rows. split.
  - assert (Hlen : length (permute_rows sigma X) = length X).
    { rewrite permute_rows_length.
      - by rewrite Hperm, length_seq.
      - intros i Hi. rewrite Hperm in Hi. apply elem_of_seq in Hi. lia. }
    intros Hnil. rewrite Hnil in Hlen. by destruct X.
  - exists c. split; [done|]. intros r Hr. by apply Hall, (permute_rows_elem sigma).
Qed.

(** With a scaler and a network that work row by row, the scores of a
    fitted detector are one function applied to each row. *)
Lemma decision_function_rowwise d :
  (forall s, exists t, forall X, StandardScaler_transform s X = t <$> X) ->
  (forall m, exists p, forall X, Model_predict m X = p <$> X) ->
  fitted d ->
  exists score_of_row, forall w x Xv,
    arrays w !! x = Some Xv ->
    check_array_ok Xv = true ->
    decision_function d x w = Ok (score_of_row <$> Xv).
Proof.
  intros Ht Hp Hfit.
  apply fitted_attrs in Hfit as ([m Hm] & [hi Hh] & Hs).
  destruct (Hp m) as [p Hpm].
  destruct (preprocessing (hp d)) eqn:Hpre.
  - destruct (Hs eq_refl) as [s Hsc]. destruct (Ht s) as [t Hts].
    exists (fun row => row_distance (t row) (p (t row))).
    intros w x Xv HX Hok.
    unfold decision_function, check_is_fitted, check_array, read_array.
    unfold_m. rewrite Hm, Hh, HX. cbn. rewrite Hok. cbn.
    rewrite HX, Hpre, Hsc. cbn.
    by rewrite Hpm, pairwise_rowwise, Hts, <- list_fmap_compose.
  - exists (fun row => row_distance row (p row)).
    intros w x Xv HX Hok.
    unfold decision_function, check_is_fitted, check_array, read_array.
    unfold_m. rewrite Hm, Hh, HX. cbn. rewrite Hok. cbn.
    rewrite HX, Hpre. cbn.
    by rewrite Hpm, pairwise_rowwise.
Qed.

(** C9: for a fitted detector whose scaler and network work row by row, an
    array that passes validation and has the fitted number of columns, and
    a permutation of its row indices, the scores of the permuted array are
    the scores of the array under the same permutation. *)
Theorem decision_function_permutes_with_rows d w x Xv w' x' sigma :
  (forall s, exists t, forall X, StandardScaler_transform s X = t <$> X) ->
  (forall m, exists p, forall X, Model_predict m X = p <$> X) ->
  fitted d ->
  arrays w !! x = Some Xv ->
  check_array_ok Xv = true ->
  n_features_ d = Some (Z.of_nat (shape1 Xv)) ->
  sigma ≡ₚ seq 0 (length Xv) ->
  arrays w' !! x' = Some (permute_rows sigma Xv) ->
  exists scores,
    decision_function d x w = Ok scores /\
    length scores = length Xv /\
    decision_function d x' w' = Ok (permute_rows sigma scores).
Proof.
  intros Ht Hp Hfit HX Hok _ Hperm HX'.
  destruct (decision_function_rowwise d Ht Hp Hfit) as [g Hg].
  exists (g <$> Xv). split; [by apply Hg|]. split; [by rewrite length_fmap|].
  rewrite permute_rows_fmap. apply Hg; [done|].
  by apply check_array_ok_permute.
Qed.

(** ** Further properties of [fit], [_build_model] and [decision_function] *)

(** What a returning call of [fit] has read and stored, for any detector. *)
Lemma fit_Ok_inv (d d' : AutoEncoder) (w w' : world) x :
  fit x (d, w) = ((d', w'), Ok tt) ->
  exists Xv m hi,
    arrays w !! x = Some Xv /\
    check_array_ok Xv = true /\
    hp d' = hp d /\
    model_ d' = Some m /\
    history_ d' = Some hi /\
    (preprocessing (hp d) = true -> scaler_ d' = Some (StandardScaler_fit Xv)) /\
    decision_scores_ d' =
      Some (pairwise_distances_no_broadcast
              (standardize (preprocessing (hp d)) (StandardScaler_fit Xv) Xv)
              (Model_predict m
                 (standardize (preprocessing (hp d)) (StandardScaler_fit Xv) Xv))) /\
    arrays w' !! x = Some Xv.
Proof.
  intros H.
  destruct d as [b hn hn_ h ns nf sc ed cr mo hi ds], w as [ls ar g].
  cbn. fit_unfold H.
  destruct (ar !! x) as [Xv|] eqn:HX.
  - pose proof (fresh_array_ne _ _ _ HX) as Hfr.
    destruct (check_array_ok Xv) eqn:Hok.
    + exists Xv.
      destruct (preprocessing h) eqn:Hpre; repeat fit_case H;
        try discriminate;
        injection H as <- <-; cbn;
        (eexists _, _; repeat split; try done;
         rewrite !lookup_insert_ne by done; done).
    + repeat fit_case H. discriminate.
  - repeat fit_case H. discriminate.
Qed.

(** What a raising call of [fit] leaves of an earlier fit. *)
Lemma fit_Raise_keeps (d d' : AutoEncoder) (w w' : world) x e :
  fit x (d, w) = ((d', w'), Raise e) ->
  model_ d' = model_ d /\
  history_ d' = history_ d /\
  decision_scores_ d' = decision_scores_ d /\
  encoding_dim_ d' = encoding_dim_ d /\
  compression_rate_ d' = compression_rate_ d /\
  lists w' = lists w.
Proof.
  intros H.
  destruct d as [b hn hn_ h ns nf sc ed cr mo hi ds], w as [ls ar g].
  cbn. fit_unfold H.
  destruct (ar !! x) as [Xv|] eqn:HX.
  - pose proof (fresh_array_ne _ _ _ HX) as Hfr.
    destruct (check_array_ok Xv) eqn:Hok.
    + destruct (decide (hn_ = hn)) as [->|Hne];
        destruct (preprocessing h) eqn:Hpre; repeat fit_case H;
        try discriminate; injection H as <- <- <-; cbn; done.
    + repeat fit_case H. by injection H as <- <- <-.
  - repeat fit_case H. by injection H as <- <- <-.
Qed.

Lemma dense_units_hidden (act : string) (l2 rate : float) (ws : list Z) (L : list layer) :
  dense_units
    (flat_map (fun u => [Dense u act None l2; Dropout rate]) ws ++ L) =
    ws ++ dense_units L.
Proof. induction ws as [|u ws IH]; cbn; [done|]. by rewrite IH. Qed.

Lemma dropout_rates_hidden (act : string) (l2 rate : float) (ws : list Z) (L : list layer) :
  dropout_rates
    (flat_map (fun u => [Dense u act None l2; Dropout rate]) ws ++ L) =
    replicate (length ws) rate ++ dropout_rates L.
Proof. induction ws as [|u ws IH]; cbn; [done|]. by rewrite IH. Qed.

Lemma length_hidden (act : string) (l2 rate : float) (ws : list Z) :
  length (flat_map (fun u => [Dense u act None l2; Dropout rate]) ws) =
    (2 * length ws)%nat.
Proof. induction ws as [|u ws IH]; cbn; [done|]. rewrite IH. lia. Qed.

(** X2: a call of [fit] on an array that validation rejects (no rows, no
    columns, or rows of different lengths) raises the validation error and
    leaves the detector, the lists, the arrays and the random state exactly
    as they were. *)
Theorem fit_rejected_input_changes_nothing d w x Xv :
  arrays w !! x = Some Xv ->
  check_array_ok Xv = false ->
  fit x (d, w) = ((d, w), Raise (ValueError "array rejected by check_array")).
Proof.
  intros HX Hok. unfold fit, check_array, read_array. unfold_m. cbn.
  rewrite HX. cbn. by rewrite Hok.
Qed.

(** X3: when [fit] raises the neurons error it has already overwritten
    [n_samples_], [n_features_] and, with preprocessing, [scaler_]; the
    width list, [model_], [history_], [decision_scores_], [encoding_dim_]
    and [compression_rate_] are as they were before the call. *)
Theorem fit_neurons_error_state d w x Xv ws least :
  arrays w !! x = Some Xv ->
  check_array_ok Xv = true ->
  lists w !! hidden_neurons d = Some ws ->
  np_min ws = Ok least ->
  least > Z.of_nat (shape1 Xv) ->
  exists d' w',
    fit x (d, w) =
      ((d', w'),
       Raise (ValueError
                "The number of neurons should not exceed the number of features")) /\
    n_samples_ d' = Some (Z.of_nat (shape0 Xv)) /\
    n_features_ d' = Some (Z.of_nat (shape1 Xv)) /\
    (preprocessing (hp d) = true -> scaler_ d' = Some (StandardScaler_fit Xv)) /\
    lists w' = lists w /\
    model_ d' = model_ d /\
    history_ d' = history_ d /\
    decision_scores_ d' = decision_scores_ d /\
    encoding_dim_ d' = encoding_dim_ d /\
    compression_rate_ d' = compression_rate_ d.
Proof.
  intros HX Hok Hws Hmin Hgt.
  destruct (fit x (d, w)) as [[d' w'] r] eqn:Hfit.
  exists d', w'.
  assert (Hr : r = Raise (ValueError
             "The number of neurons should not exceed the number of features") /\
          n_samples_ d' = Some (Z.of_nat (shape0 Xv))).
  { destruct d as [b hn hn_ h ns nf sc ed cr mo hi ds], w as [ls ar g].
    cbn in Hws, HX.
    pose proof (fresh_array_ne _ _ _ HX) as Hfr.
    assert (Hgt' : (least >? Z.of_nat (shape1 Xv)) = true) by lia.
    fit_unfold Hfit.
    destruct (preprocessing h) eqn:Hpre; repeat fit_step Hfit;
      by injection Hfit as <- <- <-. }
  destruct Hr as [-> Hn].
  pose proof (fit_frame _ _ _ _ _ _ Hfit) as (_ & _ & _ & _ & _ & Hcase).
  rewrite HX, Hok in Hcase. destruct Hcase as (Hf & Hs & _).
  pose proof (fit_Raise_keeps _ _ _ _ _ _ Hfit) as (? & ? & ? & ? & ? & ?).
  repeat split; done.
Qed.

(** X4: an empty width list passes the constructor's symmetry check, and
    [fit] on a validated array then raises numpy's error for the minimum of
    an empty array. *)
Theorem fit_empty_hidden_neurons hn h c w b x Xv :
  BaseDetector_init c = Ok b ->
  lists w !! hn = Some [] ->
  PrimFloat.leb 0 (dropout_rate h) && PrimFloat.ltb (dropout_rate h) 1 = true ->
  arrays w !! x = Some Xv ->
  check_array_ok Xv = true ->
  exists d d' w',
    __init__ hn h c w = Ok d /\
    fit x (d, w) =
      ((d', w'),
       Raise (ValueError
                "zero-size array to reduction operation minimum which has no identity")) /\
    lists w' !! hn = Some [].
Proof.
  intros Hb Hws Hr HX Hok.
  exists (MkAutoEncoder b hn hn h None None None None None None None None).
  destruct (fit x (MkAutoEncoder b hn hn h None None None None None None None None, w))
    as [[d' w'] r] eqn:Hfit.
  exists d', w'. split.
  - unfold __init__, check_parameter, read_list. unfold_m. cbn.
    rewrite Hb, Hws. cbn. rewrite Hr. reflexivity.
  - destruct w as [ls ar g]. cbn in Hws, HX.
    pose proof (fresh_array_ne _ _ _ HX) as Hfr.
    fit_unfold Hfit.
    destruct (preprocessing h) eqn:Hpre; repeat fit_step Hfit;
      by injection Hfit as <- <- <-.
Qed.

(** X5: after a call of [fit] has returned, [decision_function] on the same
    array object returns exactly the scores [fit] stored in
    [decision_scores_]. *)
Theorem decision_function_reproduces_decision_scores d w x d' w' :
  fit x (d, w) = ((d', w'), Ok tt) ->
  exists scores,
    decision_scores_ d' = Some scores /\
    decision_function d' x w' = Ok scores.
Proof.
  intros Hfit.
  apply fit_Ok_inv in Hfit
    as (Xv & m & hi & _ & Hok & Hhp & Hm & Hh & Hs & Hds & HX').
  eexists. split; [exact Hds|].
  unfold decision_function, check_is_fitted, check_array, read_array.
  unfold_m. rewrite Hm, Hh, HX'. cbn. rewrite Hok. cbn. rewrite HX', Hhp.
  unfold standardize.
  destruct (preprocessing (hp d)) eqn:Hpre.
  - rewrite (Hs eq_refl). reflexivity.
  - reflexivity.
Qed.

Lemma snoc_eq_cons_all {A : Type} (a : A) (l : list A) :
  l ++ [a] = a :: l -> forall x, x ∈ l -> x = a.
Proof.
  induction l as [|b l IH]; intros Heq x Hx.
  - by apply elem_of_nil in Hx.
  - injection Heq as -> Heq.
    apply elem_of_cons in Hx as [->|Hx]; [done|]. by apply IH.
Qed.

(** X7: after [fit] has returned on a detector built from a list object,
    constructing another detector from that list object raises the symmetry
    error, unless every width equals the feature count. *)
Theorem init_after_fit_not_symmetric hn h c w d x Xv ws least d' w' r u h2 c2 b2 :
  __init__ hn h c w = Ok d ->
  lists w !! hn = Some ws ->
  np_min ws = Ok least ->
  arrays w !! x = Some Xv ->
  check_array_ok Xv = true ->
  least <= Z.of_nat (shape1 Xv) ->
  fit x (d, w) = ((d', w'), r) ->
  u ∈ ws ->
  u <> Z.of_nat (shape1 Xv) ->
  BaseDetector_init c2 = Ok b2 ->
  r = Ok tt /\
  __init__ hn h2 c2 w' = Raise (ValueError "Hidden units should be symmetric").
Proof.
  intros Hinit Hws Hmin HX Hok Hle Hfit Hu Hne Hb2.
  apply init_Ok in Hinit as (b & ws' & _ & Hws' & Hpal & _ & ->).
  rewrite Hws in Hws'. injection Hws' as <-.
  destruct (fit_returns _ _ _ _ _ _ Xv ws least Hfit HX Hok eq_refl Hws Hmin Hle)
    as (-> & _ & _ & _ & _ & _ & _ & Hl).
  cbn in Hl. split; [done|].
  assert (Hnp : Z.of_nat (shape1 Xv) :: ws <> reverse (Z.of_nat (shape1 Xv) :: ws)).
  { intros Heq. rewrite reverse_cons, <- Hpal in Heq.
    apply Hne. symmetry in Heq. by apply (snoc_eq_cons_all _ ws Heq). }
  unfold __init__, read_list. unfold_m. cbn.
  rewrite Hb2, Hl, lookup_insert_eq. cbn.
  case_bool_decide as Hd; [|done].
  exfalso. apply Hnp. exact Hd.
Qed.

(** X8: through any sequence of calls of [fit], returning or raising, a
    constructed detector keeps the list object and the stored arguments it
    was given: [hidden_neurons] and [hidden_neurons_] both name the
    constructor's list object. *)
Theorem constructed_keeps_arguments hn h d :
  constructed_from hn h d ->
  hidden_neurons d = hn /\ hidden_neurons_ d = hn /\ hp d = h.
Proof.
  induction 1 as [c w d Hinit | d w X d' w' r _ IH Hfit].
  - by apply init_Ok in Hinit as (b & ws & _ & _ & _ & _ & ->).
  - apply fit_frame in Hfit as (H1 & H2 & H3 & _).
    destruct IH as (? & ? & ?). repeat split; congruence.
Qed.

(** X10: a returning call of [fit] on a constructed detector trains the
    network to reproduce its input.  The stack it compiles has the feature
    count, then the given widths, then the feature count again as the widths
    of its [Dense] layers; the model it stores is that model after keras
    has fitted it with the shuffled standardized copy of [X] as both input
    and target, for the configured epochs, batch size and validation split. *)
Theorem fit_trains_on_shuffled_copy hn h c w d x Xv ws least d' w' r :
  __init__ hn h c w = Ok d ->
  lists w !! hn = Some ws ->
  np_min ws = Ok least ->
  arrays w !! x = Some Xv ->
  check_array_ok Xv = true ->
  least <= Z.of_nat (shape1 Xv) ->
  fit x (d, w) = ((d', w'), r) ->
  exists L,
    dense_units L = Z.of_nat (shape1 Xv) :: ws ++ [Z.of_nat (shape1 Xv)] /\
    let Xn := standardize (preprocessing h) (StandardScaler_fit Xv) Xv in
    let sh := np_random_shuffle (np_random w) Xn in
    let cm := Sequential_compile sh.1 L (loss h) (optimizer h) in
    let tr := Model_fit cm.1 cm.2 sh.2 sh.2 (epochs h) (batch_size h)
                (validation_size h) (verbose h) in
    r = Ok tt /\
    model_ d' = Some tr.1.2 /\
    history_ d' = Some tr.2 /\
    np_random w' = tr.1.1.
Proof.
  intros Hinit Hws Hmin HX Hok Hle H.
  apply init_Ok in Hinit as (b & ws' & _ & _ & _ & _ & ->).
  set (f := Z.of_nat (shape1 Xv)).
  exists (Dense f (hidden_activation h) (Some f) (l2_regularizer h)
          :: Dropout (dropout_rate h)
          :: flat_map (fun u => [Dense u (hidden_activation h) None
                                   (l2_regularizer h);
                                 Dropout (dropout_rate h)]) ws
             ++ [Dense f (output_activation h) None (l2_regularizer h)]).
  split; [by cbn; rewrite dense_units_hidden|].
  subst f. destruct w as [ls ar g]. cbn in Hws, HX.
  pose proof (fresh_array_ne _ _ _ HX) as Hfr.
  assert (Hgt : (least >? Z.of_nat (shape1 Xv)) = false) by lia.
  cbn. fit_unfold H.
  destruct (preprocessing h) eqn:Hpre; repeat fit_step H;
    injection H as <- <- <-; cbn;
    repeat match goal with
           | Hs : _ = (_, _) |- _ => rewrite Hs; clear Hs; cbn
           end;
    done.
Qed.

(** ** Library calls that raise *)

Ltac lib_unfold H :=
  unfold fit_lib, check_array, new_array, shuffle_in_place, list_insert_front,
    _build_model_lib, guard in H;
  unfold_m.

Ltac lib_case H :=
  first
  [ fit_case H
  | match type of H with context [match ?o with Some _ => _ | None => _ end] =>
      destruct o eqn:? end ].

(** With no library call raising, the two versions agree. *)
Lemma fit_lib_no_faults x s : fit_lib no_faults x s = fit x s.
Proof. reflexivity. Qed.

Lemma decision_function_lib_no_faults d x w :
  decision_function_lib no_faults d x w = decision_function d x w.
Proof.
  unfold decision_function_lib, decision_function. unfold_m. cbn.
  destruct (check_is_fitted d); [|done].
  destruct (check_array x w); [|done].
  destruct (read_array _ w); [|done].
  destruct (preprocessing (hp d)); [|done].
  destruct (attr "scaler_" (scaler_ d)); done.
Qed.

(** What a returning call of [fit] has read and stored, whatever the
    libraries did in other calls. *)
Lemma fit_lib_Ok_inv F (d d' : AutoEncoder) (w w' : world) x :
  fit_lib F x (d, w) = ((d', w'), Ok tt) ->
  exists Xv m hi,
    arrays w !! x = Some Xv /\
    check_array_ok Xv = true /\
    hp d' = hp d /\
    hidden_neurons d' = hidden_neurons d /\
    hidden_neurons_ d' = hidden_neurons_ d /\
    n_samples_ d' = Some (Z.of_nat (shape0 Xv)) /\
    model_ d' = Some m /\
    history_ d' = Some hi /\
    decision_scores_ d' =
      Some (pairwise_distances_no_broadcast
              (standardize (preprocessing (hp d)) (StandardScaler_fit Xv) Xv)
              (Model_predict m
                 (standardize (preprocessing (hp d)) (StandardScaler_fit Xv) Xv))) /\
    arrays w' !! x = Some Xv /\
    (forall ws,
       hidden_neurons_ d = hidden_neurons d ->
       lists w !! hidden_neurons d = Some ws ->
       lists w' = <[hidden_neurons d := Z.of_nat (shape1 Xv) :: ws]> (lists w)).
Proof.
  intros H.
  destruct d as [b hn hn_ h ns nf sc ed cr mo hi ds], w as [ls ar g].
  cbn. lib_unfold H.
  destruct (ar !! x) as [Xv|] eqn:HX.
  - pose proof (fresh_array_ne _ _ _ HX) as Hfr.
    destruct (check_array_ok Xv) eqn:Hok.
    + exists Xv.
      destruct (decide (hn_ = hn)) as [->|Hne];
        destruct (preprocessing h) eqn:Hpre; repeat lib_case H;
        try discriminate;
        injection H as <- <-; cbn;
        (eexists _, _; repeat split; try done;
         try (rewrite !lookup_insert_ne by done; done);
         try (intros ws' Hal Hws'; simplify_eq; done)).
    + repeat lib_case H. discriminate.
  - repeat lib_case H. discriminate.
Qed.






(** X1: when [hidden_neurons_] names a non-empty list and the feature count
    is set, [_build_model] compiles exactly this stack: a [Dense] layer of
    the first width with the hidden activation and the input shape, a
    [Dropout] layer, then for each further width a [Dense] layer with the
    hidden activation followed by a [Dropout] layer, and last a [Dense]
    layer as wide as the feature count with the output activation.  So the
    [Dense] widths are the list followed by the feature count, and there are
    as many [Dropout] layers as widths.  Nothing but the random state
    changes. *)
Theorem build_model_layers d w u ws f :
  lists w !! hidden_neurons_ d = Some (u :: ws) ->
  n_features_ d = Some f ->
  let h := hp d in
  let L :=
    Dense u (hidden_activation h) (Some f) (l2_regularizer h)
    :: Dropout (dropout_rate h)
    :: flat_map (fun v => [Dense v (hidden_activation h) None (l2_regularizer h);
                           Dropout (dropout_rate h)]) ws
       ++ [Dense f (output_activation h) None (l2_regularizer h)] in
  _build_model (d, w) =
    ((d, set_np_random (Sequential_compile (np_random w) L (loss h) (optimizer h)).1 w),
     Ok (Sequential_compile (np_random w) L (loss h) (optimizer h)).2) /\
  dense_units L = (u :: ws) ++ [f] /\
  dropout_rates L = replicate (length (u :: ws)) (dropout_rate h) /\
  length L = (2 * length (u :: ws) + 1)%nat.
Proof.
  intros Hws Hf h L. subst h L.
  split.
  - unfold _build_model, read_list, attr. unfold_m. cbn.
    rewrite Hws. cbn. rewrite Hf. cbn.
    by destruct (Sequential_compile _ _ _ _) as [g m].
  - split; [by cbn; rewrite dense_units_hidden|].
    split; [by cbn; rewrite dropout_rates_hidden, app_nil_r|].
    cbn; rewrite length_app, length_hidden; cbn; lia.
Qed.

(** X6: if two calls of [fit] in a row on a constructed detector both
    return, the caller's list has both feature counts prepended, the later
    one first. *)
Theorem fit_twice_prepends_twice F1 F2 hn h c w d x1 X1 ws d1 w1 x2 X2 d2 w2 :
  __init__ hn h c w = Ok d ->
  lists w !! hn = Some ws ->
  arrays w !! x1 = Some X1 ->
  fit_lib F1 x1 (d, w) = ((d1, w1), Ok tt) ->
  arrays w1 !! x2 = Some X2 ->
  fit_lib F2 x2 (d1, w1) = ((d2, w2), Ok tt) ->
  lists w2 !! hn = Some (Z.of_nat (shape1 X2) :: Z.of_nat (shape1 X1) :: ws).
Proof.
  intros Hinit Hws HX1 Hfit1 HX2 Hfit2.
  apply init_Ok in Hinit as (b & ws' & _ & _ & _ & _ & ->).
  apply fit_lib_Ok_inv in Hfit1
    as (X1' & _ & _ & HX1' & _ & _ & Hhn1 & Hhn1_ & _ & _ & _ & _ & _ & Hl1).
  rewrite HX1 in HX1'. injection HX1' as <-.
  cbn in Hhn1, Hhn1_, Hl1. specialize (Hl1 ws eq_refl Hws).
  apply fit_lib_Ok_inv in Hfit2
    as (X2' & _ & _ & HX2' & _ & _ & _ & _ & _ & _ & _ & _ & _ & Hl2).
  rewrite HX2 in HX2'. injection HX2' as <-.
  rewrite Hhn1, Hhn1_ in Hl2.
  specialize (Hl2 (Z.of_nat (shape1 X1) :: ws) eq_refl).
  rewrite Hl2; [by rewrite lookup_insert_eq|].
  by rewrite Hl1, lookup_insert_eq.
Qed.


(** X11: if a call of [fit] on an array [X] of n rows returns, it has stored
    n scores, all nonnegative reals: the distances between the rows of the
    standardized [X], in the order the caller gave them, and the trained
    network's output on them.  With a scaler and a network that work row by
    row, score i is a function of row i of [X] alone. *)
Theorem fit_scores_in_row_order F d w x Xv d' w' :
  (forall s, exists t, forall X, StandardScaler_transform s X = t <$> X) ->
  (forall m, exists p, forall X, Model_predict m X = p <$> X) ->
  arrays w !! x = Some Xv ->
  fit_lib F x (d, w) = ((d', w'), Ok tt) ->
  exists m scores,
    n_samples_ d' = Some (Z.of_nat (length Xv)) /\
    decision_scores_ d' = Some scores /\
    length scores = length Xv /\
    (forall i sc, scores !! i = Some sc -> (0 <= sc)%R) /\
    model_ d' = Some m /\
    scores =
      pairwise_distances_no_broadcast
        (standardize (preprocessing (hp d)) (StandardScaler_fit Xv) Xv)
        (Model_predict m
           (standardize (preprocessing (hp d)) (StandardScaler_fit Xv) Xv)) /\
    exists t p,
      (forall X, standardize (preprocessing (hp d)) (StandardScaler_fit Xv) X = t <$> X) /\
      (forall X, Model_predict m X = p <$> X) /\
      scores = (fun row => row_distance (t row) (p (t row))) <$> Xv.
Proof.
  intros Ht Hp HX Hfit.
  apply fit_lib_Ok_inv in Hfit
    as (Xv' & m & hi & HX' & _ & _ & _ & _ & Hn & Hm & _ & Hds & _).
  pose proof (eq_trans (eq_sym HX) HX') as Heq. injection Heq as <-.
  destruct (Hp m) as [p Hpm].
  assert (Hst : exists t, forall X,
             standardize (preprocessing (hp d)) (StandardScaler_fit Xv) X = t <$> X).
  { unfold standardize. destruct (preprocessing (hp d)).
    - apply Ht.
    - exists (fun row : list R => row). intros X. symmetry. apply list_fmap_id. }
  destruct Hst as [t Hst].
  assert (Hrow : pairwise_distances_no_broadcast
                   (standardize (preprocessing (hp d)) (StandardScaler_fit Xv) Xv)
                   (Model_predict m
                      (standardize (preprocessing (hp d)) (StandardScaler_fit Xv) Xv)) =
                 (fun row => row_distance (t row) (p (t row))) <$> Xv).
  { rewrite Hpm, pairwise_rowwise, Hst, <- list_fmap_compose. done. }
  eexists m, _. split; [exact Hn|]. split; [exact Hds|].
  split; [by rewrite Hrow, length_fmap|].
  split.
  { intros i sc Hi. apply pairwise_lookup in Hi as (xr & pr & _ & _ & ->).
    apply row_distance_nonneg. }
  split; [done|]. split; [done|].
  exists t, p. done.
Qed.

End Properties.

(** * The theorems at concrete inputs, on the stub engine *)

Lemma stub_fitted_returns :
  fitted stub_fitted /\ n_features_ stub_fitted = Some 2.
Proof.
  unfold stub_fitted.
  destruct (fit 1%positive
              (stub_detector default_hyper, stub_world [2; 2] stub_matrix))
    as [[d' w'] r] eqn:Hfit.
  destruct (@fit_returns stub_engine _ _ _ _ _ _ stub_matrix [2; 2] 2
              Hfit eq_refl eq_refl eq_refl eq_refl eq_refl)
    as (-> & _ & _ & Hf & _); [cbn; lia|].
  split; [|exact Hf].
  by exists 1%positive, (stub_detector default_hyper),
            (stub_world [2; 2] stub_matrix), w'.
Qed.

Lemma stub_rowwise (X : matrix) : X = (fun row : list R => row) <$> X.
Proof. symmetry. apply list_fmap_id. Qed.

Lemma fit_encoding_dim_after_prepend_witness :
  exists d' w',
    fit 1%positive (stub_detector default_hyper, stub_world [1; 3; 1] stub_row4) =
      ((d', w'), Ok tt) /\
    encoding_dim_ d' = Some (Finite 2%Q) /\
    compression_rate_ d' = Some (Finite 2%Q).
Proof.
  destruct (fit 1%positive
              (stub_detector default_hyper, stub_world [1; 3; 1] stub_row4))
    as [[d' w'] r] eqn:Hfit.
  destruct (@fit_encoding_dim_after_prepend stub_engine 1%positive default_hyper
              0.1%float (stub_world [1; 3; 1] stub_row4)
              (stub_detector default_hyper) 1%positive stub_row4 d' w' r
              eq_refl eq_refl eq_refl eq_refl eq_refl Hfit)
    as (Hr & He & _ & Hc & _).
  exists d', w'. rewrite Hr. repeat split; assumption.
Defined.

Lemma fit_prepends_to_the_callers_list_witness :
  exists d' w',
    fit 1%positive (stub_detector default_hyper, stub_world [2; 2] stub_matrix) =
      ((d', w'), Ok tt) /\
    hidden_neurons_ d' = 1%positive /\
    lists w' !! 1%positive = Some [2; 2; 2].
Proof.
  destruct (fit 1%positive
              (stub_detector default_hyper, stub_world [2; 2] stub_matrix))
    as [[d' w'] r] eqn:Hfit.
  destruct (@fit_prepends_to_the_callers_list stub_engine 1%positive default_hyper
              0.1%float (stub_world [2; 2] stub_matrix)
              (stub_detector default_hyper) 1%positive stub_matrix [2; 2] 2
              d' w' r eq_refl eq_refl eq_refl eq_refl eq_refl
              ltac:(cbn; lia) Hfit)
    as (Hr & Hhn & Hl & _).
  exists d', w'. rewrite Hr. repeat split; assumption.
Defined.

Lemma init_checks_dropout_rate_witness :
  __init__ 1%positive (with_dropout_rate 1.0%float default_hyper) 0.1%float
    (stub_world [64; 32; 32; 64] stub_matrix) =
    Raise (ValueError "alpha is out of range") /\
  exists d,
    __init__ 1%positive (with_dropout_rate 0.99%float default_hyper) 0.1%float
      (stub_world [64; 32; 32; 64] stub_matrix) = Ok d.
Proof.
  destruct (@init_checks_dropout_rate stub_engine 1%positive default_hyper
              0.1%float (stub_world [64; 32; 32; 64] stub_matrix)
              [64; 32; 32; 64] tt eq_refl eq_refl eq_refl)
    as (_ & H1 & _ & _ & H99).
  split; assumption.
Defined.

Lemma init_requires_palindrome_witness :
  __init__ 1%positive default_hyper 0.1%float (stub_world [4; 8] stub_matrix) =
    Raise (ValueError "Hidden units should be symmetric").
Proof.
  destruct (@init_requires_palindrome stub_engine 1%positive default_hyper
              0.1%float (stub_world [4; 8] stub_matrix) [4; 8] eq_refl)
    as (_ & Hne & _).
  destruct (Hne ltac:(discriminate)) as [_ H].
  exact (H tt eq_refl).
Defined.

Lemma fit_checks_min_neurons_witness :
  exists d d' w',
    __init__ 1%positive default_hyper 0.1%float
      (stub_world [64; 32; 32; 64] stub_matrix) = Ok d /\
    fit 1%positive (d, stub_world [64; 32; 32; 64] stub_matrix) =
      ((d', w'),
       Raise (ValueError
                "The number of neurons should not exceed the number of features")).
Proof.
  destruct (@fit_checks_min_neurons stub_engine 1%positive default_hyper
              0.1%float (stub_world [64; 32; 32; 64] stub_matrix)
              [64; 32; 32; 64] tt 32 1%positive stub_matrix
              eq_refl eq_refl eq_refl eq_refl eq_refl eq_refl eq_refl)
    as (d & d' & w' & r & Hi & Hf & Hgt & _).
  exists d, d', w'. split; [exact Hi|].
  rewrite Hf. f_equal. apply Hgt. reflexivity.
Defined.

Lemma decision_function_is_row_distance_witness :
  exists scores,
    decision_function stub_fitted 1%positive (stub_world [2; 2] stub_matrix) =
      Ok scores /\
    length scores = 2%nat.
Proof.
  destruct (@decision_function_is_row_distance stub_engine stub_fitted
              (stub_world [2; 2] stub_matrix) 1%positive stub_matrix
              (fun _ _ => eq_refl) (fun _ _ => eq_refl)
              (proj1 stub_fitted_returns) eq_refl eq_refl
              (proj2 stub_fitted_returns))
    as (m & Xn & scores & _ & _ & Hd & Hl & _).
  exists scores. split; assumption.
Defined.

Lemma decision_function_permutes_with_rows_witness :
  exists scores,
    decision_function stub_fitted 1%positive
      (stub_world2 [2; 2] stub_matrix (permute_rows [1; 0]%nat stub_matrix)) =
      Ok scores /\
    decision_function stub_fitted 2%positive
      (stub_world2 [2; 2] stub_matrix (permute_rows [1; 0]%nat stub_matrix)) =
      Ok (permute_rows [1; 0]%nat scores).
Proof.
  destruct (@decision_function_permutes_with_rows stub_engine stub_fitted
              (stub_world2 [2; 2] stub_matrix (permute_rows [1; 0]%nat stub_matrix))
              1%positive stub_matrix
              (stub_world2 [2; 2] stub_matrix (permute_rows [1; 0]%nat stub_matrix))
              2%positive [1; 0]%nat
              (fun _ => ex_intro _ (fun row => row) stub_rowwise)
              (fun _ => ex_intro _ (fun row => row) stub_rowwise)
              (proj1 stub_fitted_returns) eq_refl eq_refl
              (proj2 stub_fitted_returns)
              (perm_swap 0%nat 1%nat []) eq_refl)
    as (scores & H1 & _ & H2).
  exists scores. split; assumption.
Defined.

Lemma fit_leaves_arrays_unchanged_witness :
  arrays (snd (fst (fit 1%positive
                      (stub_detector default_hyper,
                       stub_world [2; 2] stub_matrix)))) !! 1%positive =
    Some stub_matrix.
Proof.
  destruct (fit 1%positive
              (stub_detector default_hyper, stub_world [2; 2] stub_matrix))
    as [[d' w'] r] eqn:Hfit.
  destruct (@fit_leaves_arrays_unchanged stub_engine _ _ _ _ _ _ Hfit) as [H _].
  apply H. reflexivity.
Defined.

Lemma fit_rejected_input_changes_nothing_witness :
  fit 1%positive (stub_detector default_hyper, stub_world [2; 2] []) =
    ((stub_detector default_hyper, stub_world [2; 2] []),
     Raise (ValueError "array rejected by check_array")).
Proof.
  apply (@fit_rejected_input_changes_nothing stub_engine
           (stub_detector default_hyper) (stub_world [2; 2] []) 1%positive []);
    reflexivity.
Defined.

Lemma fit_neurons_error_state_witness :
  exists d' w',
    fit 1%positive
      (stub_detector default_hyper, stub_world [64; 32; 32; 64] stub_matrix) =
      ((d', w'),
       Raise (ValueError
                "The number of neurons should not exceed the number of features")) /\
    n_features_ d' = Some 2 /\
    scaler_ d' = Some tt /\
    lists w' !! 1%positive = Some [64; 32; 32; 64] /\
    model_ d' = None.
Proof.
  destruct (@fit_neurons_error_state stub_engine (stub_detector default_hyper)
              (stub_world [64; 32; 32; 64] stub_matrix) 1%positive stub_matrix
              [64; 32; 32; 64] 32 eq_refl eq_refl eq_refl eq_refl eq_refl)
    as (d' & w' & Hf & _ & Hn & Hs & Hl & Hm & _).
  exists d', w'. split; [exact Hf|]. split; [exact Hn|].
  split; [exact (Hs eq_refl)|]. split; [by rewrite Hl|exact Hm].
Defined.

Lemma fit_empty_hidden_neurons_witness :
  exists d d' w',
    __init__ 1%positive default_hyper 0.1%float (stub_world [] stub_matrix) = Ok d /\
    fit 1%positive (d, stub_world [] stub_matrix) =
      ((d', w'),
       Raise (ValueError
                "zero-size array to reduction operation minimum which has no identity")).
Proof.
  destruct (@fit_empty_hidden_neurons stub_engine 1%positive default_hyper
              0.1%float (stub_world [] stub_matrix) tt 1%positive stub_matrix
              eq_refl eq_refl eq_refl eq_refl eq_refl)
    as (d & d' & w' & Hi & Hf & _).
  exists d, d', w'. split; assumption.
Defined.

Lemma stub_fit_Ok :
  snd (fit 1%positive
         (stub_detector default_hyper, stub_world [2; 2] stub_matrix)) = Ok tt.
Proof.
  destruct (fit 1%positive
              (stub_detector default_hyper, stub_world [2; 2] stub_matrix))
    as [[d' w'] r] eqn:Hfit.
  by destruct (@fit_returns stub_engine _ _ _ _ _ _ stub_matrix [2; 2] 2
                 Hfit eq_refl eq_refl eq_refl eq_refl eq_refl)
    as (-> & _); [cbn; lia|].
Qed.

Lemma decision_function_reproduces_decision_scores_witness :
  exists d' w' scores,
    fit 1%positive (stub_detector default_hyper, stub_world [2; 2] stub_matrix) =
      ((d', w'), Ok tt) /\
    decision_scores_ d' = Some scores /\
    decision_function d' 1%positive w' = Ok scores.
Proof.
  pose proof stub_fit_Ok as Hr.
  destruct (fit 1%positive
              (stub_detector default_hyper, stub_world [2; 2] stub_matrix))
    as [[d' w'] r] eqn:Hfit.
  cbn in Hr. subst r.
  destruct (@decision_function_reproduces_decision_scores stub_engine
              _ _ _ _ _ Hfit) as (scores & Hd & Hs).
  exists d', w', scores. repeat split; assumption.
Defined.

Lemma init_after_fit_not_symmetric_witness :
  exists d' w',
    fit 1%positive (stub_detector default_hyper, stub_world [1; 1] stub_matrix) =
      ((d', w'), Ok tt) /\
    __init__ 1%positive default_hyper 0.1%float w' =
      Raise (ValueError "Hidden units should be symmetric").
Proof.
  destruct (fit 1%positive
              (stub_detector default_hyper, stub_world [1; 1] stub_matrix))
    as [[d' w'] r] eqn:Hfit.
  destruct (@init_after_fit_not_symmetric stub_engine 1%positive default_hyper
              0.1%float (stub_world [1; 1] stub_matrix)
              (stub_detector default_hyper) 1%positive stub_matrix [1; 1] 1
              d' w' r 1 default_hyper 0.1%float tt
              eq_refl eq_refl eq_refl eq_refl eq_refl ltac:(cbn; lia) Hfit
              ltac:(left) ltac:(discriminate) eq_refl)
    as (Hr & Hi).
  exists d', w'. rewrite Hr. split; [reflexivity|exact Hi].
Defined.

Lemma constructed_keeps_arguments_witness :
  hidden_neurons stub_fitted = 1%positive /\
  hidden_neurons_ stub_fitted = 1%positive /\
  hp stub_fitted = default_hyper.
Proof.
  apply (@constructed_keeps_arguments stub_engine 1%positive default_hyper).
  apply (@constructed_fit stub_engine 1%positive default_hyper
           (stub_detector default_hyper) (stub_world [2; 2] stub_matrix)
           1%positive stub_fitted
           (snd (fst (fit 1%positive
                        (stub_detector default_hyper,
                         stub_world [2; 2] stub_matrix))))
           (snd (fit 1%positive
                   (stub_detector default_hyper,
                    stub_world [2; 2] stub_matrix)))).
  - apply (@constructed_new stub_engine 1%positive default_hyper 0.1%float
             (stub_world [2; 2] stub_matrix)).
    reflexivity.
  - unfold stub_fitted.
    destruct (fit 1%positive
                (stub_detector default_hyper, stub_world [2; 2] stub_matrix))
      as [[d' w'] r].
    reflexivity.
Defined.

Lemma fit_trains_on_shuffled_copy_witness :
  exists d' w' L,
    fit 1%positive (stub_detector default_hyper, stub_world [2; 2] stub_matrix) =
      ((d', w'), Ok tt) /\
    dense_units L = [2; 2; 2; 2] /\
    model_ d' = Some tt /\
    history_ d' = Some tt.
Proof.
  destruct (fit 1%positive
              (stub_detector default_hyper, stub_world [2; 2] stub_matrix))
    as [[d' w'] r] eqn:Hfit.
  destruct (@fit_trains_on_shuffled_copy stub_engine 1%positive default_hyper
              0.1%float (stub_world [2; 2] stub_matrix)
              (stub_detector default_hyper) 1%positive stub_matrix [2; 2] 2
              d' w' r eq_refl eq_refl eq_refl eq_refl eq_refl
              ltac:(cbn; lia) Hfit)
    as (L & HL & Hr & Hm & Hh & _).
  exists d', w', L. rewrite Hr. repeat split; assumption.
Defined.



Lemma build_model_layers_witness :
  _build_model (set_shape 5 2 (stub_detector default_hyper),
                stub_world [2; 3; 2] stub_matrix) =
    ((set_shape 5 2 (stub_detector default_hyper),
      stub_world [2; 3; 2] stub_matrix), Ok tt).
Proof.
  exact (proj1 (@build_model_layers stub_engine
                  (set_shape 5 2 (stub_detector default_hyper))
                  (stub_world [2; 3; 2] stub_matrix) 2 [3; 2] 2
                  eq_refl eq_refl)).
Defined.

Lemma fit_twice_prepends_twice_witness :
  exists d1 w1 d2 w2,
    fit 1%positive (stub_detector default_hyper, stub_world [2; 2] stub_matrix) =
      ((d1, w1), Ok tt) /\
    fit 1%positive (d1, w1) = ((d2, w2), Ok tt) /\
    lists w2 !! 1%positive = Some [2; 2; 2; 2].
Proof.
  pose proof stub_fit_Ok as Hr.
  destruct (fit 1%positive
              (stub_detector default_hyper, stub_world [2; 2] stub_matrix))
    as [[d1 w1] r1] eqn:Hfit1.
  cbn in Hr. subst r1.
  destruct (fit 1%positive (d1, w1)) as [[d2 w2] r2] eqn:Hfit2.
  pose proof (@fit_frame stub_engine _ _ _ _ _ _ Hfit1) as (Hhn & Hhn_ & _).
  destruct (@fit_returns stub_engine _ _ _ _ _ _ stub_matrix [2; 2] 2
              Hfit1 eq_refl eq_refl eq_refl eq_refl eq_refl)
    as (_ & _ & _ & _ & _ & _ & _ & Hl1); [cbn; lia|].
  destruct (@fit_Ok_inv stub_engine _ _ _ _ _ Hfit1)
    as (Xv & _ & _ & HX & _ & _ & _ & _ & _ & _ & HX1).
  injection HX as <-.
  assert (Hws1 : lists w1 !! hidden_neurons d1 = Some [2; 2; 2]).
  { rewrite Hhn, Hl1. reflexivity. }
  destruct (@fit_returns stub_engine _ _ _ _ _ _ stub_matrix [2; 2; 2] 2
              Hfit2 HX1 eq_refl ltac:(rewrite Hhn, Hhn_; reflexivity) Hws1 eq_refl)
    as (-> & _); [cbn; lia|].
  exists d1, w1, d2, w2. split; [reflexivity|]. split; [exact Hfit2|].
  exact (@fit_twice_prepends_twice stub_engine no_faults no_faults 1%positive
           default_hyper 0.1%float (stub_world [2; 2] stub_matrix)
           (stub_detector default_hyper) 1%positive stub_matrix [2; 2]
           d1 w1 1%positive stub_matrix d2 w2
           eq_refl eq_refl eq_refl Hfit1 HX1 Hfit2).
Defined.


Lemma fit_scores_in_row_order_witness :
  exists d' w' scores,
    fit 1%positive (stub_detector default_hyper, stub_world [2; 2] stub_matrix) =
      ((d', w'), Ok tt) /\
    decision_scores_ d' = Some scores /\
    length scores = 2%nat.
Proof.
  pose proof stub_fit_Ok as Hr.
  destruct (fit 1%positive
              (stub_detector default_hyper, stub_world [2; 2] stub_matrix))
    as [[d' w'] r] eqn:Hfit.
  cbn in Hr. subst r.
  destruct (@fit_scores_in_row_order stub_engine no_faults
              (stub_detector default_hyper) (stub_world [2; 2] stub_matrix)
              1%positive stub_matrix d' w'
              (fun _ => ex_intro _ (fun row => row) stub_rowwise)
              (fun _ => ex_intro _ (fun row => row) stub_rowwise)
              eq_refl Hfit)
    as (m & scores & _ & Hd & Hl & _).
  exists d', w', scores. repeat split; assumption.
Defined.
